(** * Senlin health manager: a shallow embedding of
      [senlin/engine/health_manager.py] and the properties of its
      registry bookkeeping, timer installation and notification wrapper.

    The Python class [HealthManager] mutates [self] and talks to three
    collaborators that are not part of the sources: the registry store
    ([senlin.db.api]), the engine RPC client ([senlin.rpc.client]) and the
    messaging layer ([senlin.common.messaging]).  The embedding threads the
    object and the outside world through a state-and-exception monad; the
    collaborators enter as variables of the sections below. *)

From Stdlib Require Import List String ZArith Lia Bool Arith.
Import ListNotations.
Open Scope string_scope.
Open Scope Z_scope.

(** ** Exceptions and results *)

(** The Python exceptions that can cross the modelled code. *)
Inductive Exn : Type :=
| DuplicateSubscription            (* the store already has a row for the cluster *)
| MessagingTimeout                 (* oslo_messaging.MessagingTimeout *)
| RemoteError (name : string)      (* any other exception a remote call raises *)
| StoreError (name : string)       (* any other exception a store call raises *)
| ValueError.                      (* list.remove(x) with x not in the list *)

Inductive result (A : Type) : Type :=
| Ok (a : A)
| Raise (e : Exn).
Arguments Ok {A} a.
Arguments Raise {A} e.

(** ** State and exceptions

    A computation takes the state, returns a value or raises, and hands
    back the state as the mutations made so far left it: a Python exception
    undoes nothing. *)
Definition M (S A : Type) : Type := S -> result A * S.

Definition ret {S A : Type} (a : A) : M S A := fun s => (Ok a, s).

Definition raise {S A : Type} (e : Exn) : M S A := fun s => (Raise e, s).

Definition bind {S A B : Type} (m : M S A) (k : A -> M S B) : M S B :=
  fun s =>
    match m s with
    | (Ok a, s') => k a s'
    | (Raise e, s') => (Raise e, s')
    end.

Definition gets {S A : Type} (f : S -> A) : M S A := fun s => (Ok (f s), s).

Definition modify {S : Type} (f : S -> S) : M S unit := fun s => (Ok tt, f s).

Declare Scope py_scope.
Delimit Scope py_scope with py.
Notation "x <- m ;; k" := (bind m (fun x => k))
  (at level 61, m at next level, right associativity) : py_scope.
Notation "m ;;; k" := (bind m (fun _ => k))
  (at level 61, right associativity) : py_scope.

(** [for x in xs: body(x)] over a list the body does not change. *)
Fixpoint for_each {S A : Type} (xs : list A) (body : A -> M S unit) : M S unit :=
  match xs with
  | [] => ret tt
  | x :: rest => bind (body x) (fun _ => for_each rest body)
  end.

(** ** Registry rows *)

(** The keyword arguments [**params] of [register_cluster]. *)
Definition Params : Type := list (string * string).

Fixpoint Params_eqb (p q : Params) : bool :=
  match p, q with
  | [], [] => true
  | (k, v) :: p', (k', v') :: q' =>
      String.eqb k k' && String.eqb v v' && Params_eqb p' q'
  | _, _ => false
  end.

Module Registry.

(** Modelled from the spec: the row object that [db_api.registry_create] and
    [db_api.registry_claim] return; its class is not among the sources.  The
    fields are the ones [health_manager.py] reads ([cluster_id],
    [check_type], [interval], [engine_id]) or passes to [registry_create]
    ([params]).  [interval] is a number of seconds, as the spec's data model
    has it. *)
Record t : Type := mk {
  cluster_id : string;
  check_type : string;
  interval : Z;
  params : Params;
  engine_id : string
}.

(** [a == b] on rows, read as equality of every field. *)
Definition eqb (a b : t) : bool :=
  String.eqb (cluster_id a) (cluster_id b)
  && String.eqb (check_type a) (check_type b)
  && Z.eqb (interval a) (interval b)
  && Params_eqb (params a) (params b)
  && String.eqb (engine_id a) (engine_id b).

End Registry.

(** [xs.remove(x)]: drops the first element equal to [x]; [None] stands for
    the [ValueError] Python raises when there is none. *)
Fixpoint py_list_remove (x : Registry.t) (xs : list Registry.t) : option (list Registry.t) :=
  match xs with
  | [] => None
  | y :: rest =>
      if Registry.eqb y x then Some rest
      else match py_list_remove x rest with
           | Some rest' => Some (y :: rest')
           | None => None
           end
  end.

(** ** Timers of the thread group *)

(** The objects [start_periodic_tasks] can hand to [add_timer] as the
    callback.  [Partial_periodic_check c] is a callable that runs
    [_periodic_check(c)] when the timer fires; [PyNone] is the value [None],
    which is what a call of [_periodic_check] returns. *)
Inductive PyObject : Type :=
| Method_idle_task
| Partial_periodic_check (cluster_id : string)
| PyNone.

Record Timer : Type := mkTimer {
  timer_interval : Z;
  timer_callback : PyObject
}.

(** ** The registry store interface ([senlin.db.api]) *)

Record DbApi (Store : Type) : Type := mkDbApi {
  registry_create :
    Store -> string -> string -> Z -> Params -> string -> result Registry.t * Store;
  registry_delete : Store -> string -> result unit * Store;
  registry_claim : Store -> string -> result (list Registry.t) * Store
}.
Arguments registry_create {Store} _ _ _ _ _ _ _.
Arguments registry_delete {Store} _ _ _.
Arguments registry_claim {Store} _ _ _.

(** ** class HealthManager *)

Module HealthManager.

Record t : Type := mk {
  engine_id : string;
  topic : string;
  version : string;
  periodic_interval_max : Z;
  rt : list Registry.t;          (* self.rt['registries'] *)
  TG : list Timer                (* the timers of self.TG, oldest first *)
}.

(** [__init__]: an empty registry list and an empty thread group. *)
Definition init (engine_id topic version : string) (CONF_periodic_interval_max : Z) : t :=
  mk engine_id topic version CONF_periodic_interval_max [] [].

(** The property [registries]. *)
Definition registries (self : t) : list Registry.t := rt self.

Definition set_rt (regs : list Registry.t) (self : t) : t :=
  mk (engine_id self) (topic self) (version self) (periodic_interval_max self)
     regs (TG self).

Definition set_TG (timers : list Timer) (self : t) : t :=
  mk (engine_id self) (topic self) (version self) (periodic_interval_max self)
     (rt self) timers.

Section Service.

Variable Store : Type.
Variable db_api : DbApi Store.

(** The outcome of [EngineClient().cluster_check(context, cluster_id)], which
    may depend on the calls made before it. *)
Variable cluster_check : list string -> string -> result unit.

(** [cfg.CONF.periodic_interval], the period of the idle timer. *)
Variable CONF_periodic_interval : Z.

(** What lies outside the object: the store and the log of the cluster ids
    handed to [cluster_check], oldest first. *)
Record World : Type := mkWorld {
  store : Store;
  rpc_calls : list string
}.

Definition St : Type := (t * World)%type.

Definition self_ {A : Type} (f : t -> A) : M St A := gets (fun s => f (fst s)).

Definition update_self (f : t -> t) : M St unit :=
  modify (fun s => (f (fst s), snd s)).

(** A store call: runs on the current store and leaves the store it returns. *)
Definition db_call {A : Type} (f : Store -> result A * Store) : M St A :=
  fun s =>
    let '(r, store') := f (store (snd s)) in
    (r, (fst s, mkWorld store' (rpc_calls (snd s)))).

(** [rpcc.cluster_check(context, cluster_id)]. *)
Definition rpc_cluster_check (cluster_id : string) : M St unit :=
  fun s =>
    (cluster_check (rpc_calls (snd s)) cluster_id,
     (fst s, mkWorld (store (snd s)) (rpc_calls (snd s) ++ [cluster_id]))).

(** [self.TG.add_timer(interval, callback)]: the thread group keeps one more
    timer. *)
Definition TG_add_timer (interval : Z) (callback : PyObject) : M St unit :=
  update_self (fun self => set_TG (TG self ++ [mkTimer interval callback]) self).

(** [self.TG.stop_timers()]: every timer is stopped and forgotten. *)
Definition TG_stop_timers : M St unit :=
  update_self (set_TG []).

Definition _idle_task : M St PyObject := ret PyNone.

Definition _periodic_check (cluster_id : string) : M St PyObject :=
  (rpc_cluster_check cluster_id ;;;
   ret PyNone)%py.

(** The body of the loop of [start_periodic_tasks], for one registry. *)
Definition start_periodic_tasks_body (registry : Registry.t) : M St unit :=
  (if String.eqb (Registry.check_type registry) "NODE_STATUS_POLLING" then
     max <- self_ periodic_interval_max ;;
     let interval := Z.min (Registry.interval registry) max in
     callback <- _periodic_check (Registry.cluster_id registry) ;;
     TG_add_timer interval callback
   else ret tt)%py.

Definition start_periodic_tasks : M St unit :=
  (TG_add_timer CONF_periodic_interval Method_idle_task ;;;
   regs <- self_ registries ;;
   for_each regs start_periodic_tasks_body)%py.

Definition _load_runtime_registry : M St unit :=
  (own <- self_ engine_id ;;
   db_registries <- db_call (fun s => registry_claim db_api s own) ;;
   let regs :=
     filter (fun registry => String.eqb (Registry.engine_id registry) own)
            db_registries in
   update_self (set_rt regs))%py.

(** [start]: the base class's start and the RPC server are outside the
    model; what is left is the load and the timers. *)
Definition start : M St unit :=
  (_load_runtime_registry ;;;
   start_periodic_tasks)%py.

(** [stop]: the timers are stopped; the base class's stop is outside the
    model. *)
Definition stop : M St unit := TG_stop_timers.

Definition listening : M St bool := ret true.

(** [register_cluster] with [interval] given as a number of seconds. *)
Definition register_cluster (cluster_id check_type : string) (interval : Z)
    (params : Params) : M St unit :=
  (own <- self_ engine_id ;;
   registry <- db_call (fun s =>
     registry_create db_api s cluster_id check_type interval params own) ;;
   update_self (fun self => set_rt (rt self ++ [registry]) self))%py.

(** [self.rt['registries'].remove(registry)]. *)
Definition rt_remove (registry : Registry.t) : M St unit :=
  (regs <- self_ rt ;;
   match py_list_remove registry regs with
   | Some regs' => update_self (set_rt regs')
   | None => raise ValueError
   end)%py.

(** The loop of [unregister_cluster]: a list iterator is an index into the
    live list; each step reads the element at the index, or stops when the
    index has reached the current length, and moves the index by one
    whatever the body did to the list. *)
Fixpoint unregister_scan (fuel : nat) (index : nat) (cluster_id : string)
    : M St unit :=
  match fuel with
  | O => ret tt
  | S fuel' =>
      (regs <- self_ rt ;;
       match nth_error regs index with
       | None => ret tt
       | Some registry =>
           (if String.eqb (Registry.cluster_id registry) cluster_id
            then rt_remove registry
            else ret tt) ;;;
           unregister_scan fuel' (S index) cluster_id
       end)%py
  end.

(** The index moves by one per step and the list never grows, so the loop
    makes at most [length] steps before the iterator is exhausted. *)
Definition unregister_cluster (cluster_id : string) : M St unit :=
  (regs <- self_ rt ;;
   unregister_scan (S (List.length regs)) 0 cluster_id ;;;
   db_call (fun s => registry_delete db_api s cluster_id))%py.

End Service.

End HealthManager.

(** ** Module-level functions: the caller side of the notification channel *)

(** Positional and keyword arguments forwarded to the remote method. *)
Inductive PyArg : Type :=
| ArgStr (s : string)
| ArgInt (z : Z).

(** The request context: [RequestContext(is_admin=True)] is the only one the
    source builds itself. *)
Record RequestContext : Type := mkRequestContext {
  is_admin : bool
}.

(** What [client.prepare(version=, timeout=, topic=, server=)] returns; a
    missing [server] is [None]. *)
Record CallContext : Type := prepare {
  cc_version : string;
  cc_timeout : Z;
  cc_topic : string;
  cc_server : option string
}.

(** [if engine_id:] is false for [None] and for the empty string. *)
Definition truthy (engine_id : option string) : bool :=
  match engine_id with
  | Some s => negb (String.eqb s "")
  | None => false
  end.

Section Notification.

(** [cfg.CONF.engine_life_check_timeout], [consts.RPC_API_VERSION] and
    [consts.ENGINE_HEALTH_MGR_TOPIC]. *)
Variable CONF_engine_life_check_timeout : Z.
Variable RPC_API_VERSION : string.
Variable ENGINE_HEALTH_MGR_TOPIC : string.

(** The outcome of [call_context.call(ctx, method, *args, **kwargs)]: it
    returns (the value is dropped by [notify]) or raises. *)
Variable call :
  CallContext -> RequestContext -> string -> list PyArg -> list (string * PyArg) ->
  result unit.

(** The context [notify] prepares for a given [engine_id]. *)
Definition notify_call_context (engine_id : option string) : CallContext :=
  let timeout := CONF_engine_life_check_timeout in
  if truthy engine_id then
    prepare RPC_API_VERSION timeout ENGINE_HEALTH_MGR_TOPIC engine_id
  else
    prepare RPC_API_VERSION timeout ENGINE_HEALTH_MGR_TOPIC None.

(** [current] is what [oslo_context.get_current()] returns. *)
Definition notify_ctx (current : option RequestContext) : RequestContext :=
  match current with
  | None => mkRequestContext true
  | Some ctx => ctx
  end.

Definition notify (current : option RequestContext) (engine_id : option string)
    (method : string) (args : list PyArg) (kwargs : list (string * PyArg))
    : result bool :=
  let call_context := notify_call_context engine_id in
  let ctx := notify_ctx current in
  match call call_context ctx method args kwargs with
  | Ok _ => Ok true
  | Raise MessagingTimeout => Ok false
  | Raise e => Raise e
  end.

Definition register (current : option RequestContext) (cluster_id : string)
    (engine_id : option string) (args : list PyArg) (kwargs : list (string * PyArg))
    : result bool :=
  notify current engine_id "register_cluster" (ArgStr cluster_id :: args) kwargs.

Definition unregister (current : option RequestContext) (cluster_id : string)
    (engine_id : option string) : result bool :=
  notify current engine_id "unregister_cluster" [ArgStr cluster_id] [].

End Notification.

(** ** The registry store of the spec *)

(** The rows and registries that are not about [cluster_id]. *)
Definition other_cluster (cluster_id : string) (r : Registry.t) : bool :=
  negb (String.eqb (Registry.cluster_id r) cluster_id).

Module SpecStore.

(** Modelled from the spec: the durable table behind [senlin.db.api], which is
    not among the sources.  One row per subscription, oldest first. *)
Definition t : Type := list Registry.t.

Definition has_row (cluster_id : string) (rows : t) : bool :=
  existsb (fun r => String.eqb (Registry.cluster_id r) cluster_id) rows.

(** Modelled from the spec: [create] returns the new subscription and fails
    with [DuplicateSubscription] if one exists for the cluster. *)
Definition create (rows : t) (cluster_id check_type : string) (interval : Z)
    (params : Params) (engine_id : string) : result Registry.t * t :=
  if has_row cluster_id rows then (Raise DuplicateSubscription, rows)
  else
    let row := Registry.mk cluster_id check_type interval params engine_id in
    (Ok row, (rows ++ [row])%list).

(** Modelled from the spec: [delete] is an idempotent removal. *)
Definition delete (rows : t) (cluster_id : string) : result unit * t :=
  (Ok tt, filter (other_cluster cluster_id) rows).

Definition reassign (engine_id : string) (r : Registry.t) : Registry.t :=
  Registry.mk (Registry.cluster_id r) (Registry.check_type r)
              (Registry.interval r) (Registry.params r) engine_id.

(** Modelled from the spec: [claim] returns the subscriptions already owned
    by [engine_id] plus the orphaned ones (their owner is not alive),
    reassigned to [engine_id]. *)
Definition claim (alive : string -> bool) (rows : t) (engine_id : string)
    : result (list Registry.t) * t :=
  let rows' :=
    map (fun r =>
           if String.eqb (Registry.engine_id r) engine_id
              || negb (alive (Registry.engine_id r))
           then reassign engine_id r else r) rows in
  (Ok (filter (fun r => String.eqb (Registry.engine_id r) engine_id) rows'),
   rows').

Definition db_api (alive : string -> bool) : DbApi t :=
  mkDbApi t create delete (claim alive).

End SpecStore.

(** ** Predicates the statements use *)

(** Every registry of the owned set names this instance as its owner. *)
Definition owned_by_self (self : HealthManager.t) : Prop :=
  Forall (fun r => Registry.engine_id r = HealthManager.engine_id self)
         (HealthManager.rt self).

(** The store contract the owner invariant needs of [registry_create]: the
    row it returns carries the [engine_id] it was given. *)
Definition create_keeps_owner {Store : Type} (db : DbApi Store) : Prop :=
  forall s cluster_id check_type interval params engine_id r s',
    registry_create db s cluster_id check_type interval params engine_id = (Ok r, s') ->
    Registry.engine_id r = engine_id.

Definition is_polling (r : Registry.t) : bool :=
  String.eqb (Registry.check_type r) "NODE_STATUS_POLLING".

(** The timer [start_periodic_tasks] adds for a registry whose check
    returned. *)
Definition polling_timer (max : Z) (r : Registry.t) : Timer :=
  mkTimer (Z.min (Registry.interval r) max) PyNone.

(** ** Concrete instances and collaborators *)

Definition engine_A : string := "engine-A".
Definition engine_B : string := "engine-B".

Definition all_alive (engine_id : string) : bool := true.

Definition check_returns (calls : list string) (cluster_id : string) : result unit :=
  Ok tt.

Definition check_times_out (calls : list string) (cluster_id : string) : result unit :=
  Raise MessagingTimeout.

(** The remote check times out for one cluster and returns for the others. *)
Definition check_fails_for (bad : string) (calls : list string) (cluster_id : string)
    : result unit :=
  if String.eqb cluster_id bad then Raise MessagingTimeout else Ok tt.

Definition call_returns (cc : CallContext) (ctx : RequestContext) (method : string)
    (args : list PyArg) (kwargs : list (string * PyArg)) : result unit :=
  Ok tt.

Definition call_times_out (cc : CallContext) (ctx : RequestContext) (method : string)
    (args : list PyArg) (kwargs : list (string * PyArg)) : result unit :=
  Raise MessagingTimeout.

(** The remote [register_cluster] raised and the messaging layer re-raised
    it on the caller's side. *)
Definition call_fails_remotely (cc : CallContext) (ctx : RequestContext)
    (method : string) (args : list PyArg) (kwargs : list (string * PyArg))
    : result unit :=
  Raise (RemoteError "DuplicateSubscription").

Definition hm_A : HealthManager.t := HealthManager.init engine_A "health-manager" "1.0" 60.
Definition hm_B : HealthManager.t := HealthManager.init engine_B "health-manager" "1.0" 60.

Definition reg_c1 : Registry.t := Registry.mk "c1" "NODE_STATUS_POLLING" 10 [] engine_A.
Definition reg_c1_again : Registry.t := Registry.mk "c1" "NODE_STATUS_POLLING" 20 [] engine_A.
Definition reg_c2_slow : Registry.t := Registry.mk "c2" "NODE_STATUS_POLLING" 120 [] engine_A.
Definition reg_c3_events : Registry.t := Registry.mk "c3" "EVENTS" 30 [] engine_A.
Definition reg_c4_other : Registry.t := Registry.mk "c4" "NODE_STATUS_POLLING" 5 [] engine_B.

Definition world_of (rows : SpecStore.t) : HealthManager.World SpecStore.t :=
  HealthManager.mkWorld SpecStore.t rows [].

Definition spec_db : DbApi SpecStore.t := SpecStore.db_api all_alive.

(** The registries of a list that are about [cluster_id]. *)
Definition registries_of (cluster_id : string) (regs : list Registry.t)
    : list Registry.t :=
  filter (fun r => String.eqb (Registry.cluster_id r) cluster_id) regs.


(** * Properties *)

(** ** Rows, lists and the registry object *)

Lemma Params_eqb_refl (p : Params) : Params_eqb p p = true.
Proof.
  induction p as [|[k v] p IH]; simpl; [reflexivity|].
  now rewrite !String.eqb_refl, IH.
Qed.

Lemma Registry_eqb_refl (r : Registry.t) : Registry.eqb r r = true.
Proof.
  unfold Registry.eqb.
  now rewrite !String.eqb_refl, Z.eqb_refl, Params_eqb_refl.
Qed.

(** Removing an element that is in the list succeeds, shortens the list by
    one and leaves only elements that were there. *)
Lemma py_list_remove_In (x : Registry.t) (xs : list Registry.t) :
  In x xs ->
  exists xs', py_list_remove x xs = Some xs'
              /\ S (List.length xs') = List.length xs
              /\ incl xs' xs.
Proof.
  induction xs as [|y rest IH]; simpl; [tauto|].
  intros Hin.
  destruct (Registry.eqb y x) eqn:Eyx.
  - exists rest. repeat split; auto using incl_tl, incl_refl.
  - destruct Hin as [->|Hin]; [now rewrite Registry_eqb_refl in Eyx|].
    destruct (IH Hin) as (rest' & -> & Hlen & Hincl).
    exists (y :: rest'). simpl. repeat split; [lia|].
    intros z [->|Hz]; [now left | right; auto].
Qed.

Lemma set_rt_same (self : HealthManager.t) :
  HealthManager.set_rt (HealthManager.rt self) self = self.
Proof. now destruct self. Qed.

Section ServiceFacts.

Import HealthManager.

Variable Store : Type.
Variable db : DbApi Store.

(** ** The loop of [unregister_cluster] *)

(** Whatever the fuel and the index, the scan returns normally, touches
    nothing but the registry list, and leaves a list made of registries that
    were there. *)
Lemma unregister_scan_removes (fuel : nat) :
  forall (index : nat) (cluster_id : string) (self : t) (w : World Store),
  exists regs',
    unregister_scan Store fuel index cluster_id (self, w)
      = (Ok tt, (set_rt regs' self, w))
    /\ incl regs' (rt self)
    /\ (List.length regs' <= List.length (rt self))%nat.
Proof.
  induction fuel as [|fuel IH]; intros index cid self w.
  - exists (rt self). simpl. unfold ret. rewrite set_rt_same.
    auto using incl_refl.
  - simpl. unfold bind at 1. unfold self_, gets. simpl.
    destruct (nth_error (rt self) index) as [registry|] eqn:Enth.
    + destruct (String.eqb (Registry.cluster_id registry) cid).
      * destruct (py_list_remove_In registry (rt self) (nth_error_In _ _ Enth))
          as (regs1 & Hrm & Hlen & Hincl).
        unfold bind, rt_remove, self_, gets, update_self, modify, bind. simpl.
        rewrite Hrm. simpl.
        destruct (IH (S index) cid (set_rt regs1 self) w) as (regs' & Hscan & Hin & Hle).
        exists regs'. rewrite Hscan. simpl in *.
        repeat split; [eauto using incl_tran | lia].
      * unfold bind, ret. simpl.
        destruct (IH (S index) cid self w) as (regs' & Hscan & Hin & Hle).
        exists regs'. now rewrite Hscan.
    + exists (rt self). unfold ret. rewrite set_rt_same.
      auto using incl_refl.
Qed.

(** Enough fuel gives the result: once the fuel exceeds the number of
    elements left after the index, more fuel changes nothing, so the loop
    always ends because the iterator is exhausted. *)
Lemma unregister_scan_fuel (fuel : nat) :
  forall (fuel' index : nat) (cluster_id : string) (self : t) (w : World Store),
    (List.length (rt self) - index < fuel)%nat ->
    (List.length (rt self) - index < fuel')%nat ->
    unregister_scan Store fuel index cluster_id (self, w)
    = unregister_scan Store fuel' index cluster_id (self, w).
Proof.
  induction fuel as [|fuel IH]; intros fuel' index cid self w Hf Hf'; [lia|].
  destruct fuel' as [|fuel']; [lia|].
  simpl. unfold bind at 1 3. unfold self_, gets. simpl.
  destruct (nth_error (rt self) index) as [registry|] eqn:Enth; [|reflexivity].
  assert (Hlt : (index < List.length (rt self))%nat)
    by (apply nth_error_Some; congruence).
  destruct (String.eqb (Registry.cluster_id registry) cid).
  - destruct (py_list_remove_In registry (rt self) (nth_error_In _ _ Enth))
      as (regs1 & Hrm & Hlen & _).
    unfold bind, rt_remove, self_, gets, update_self, modify, bind. simpl.
    rewrite Hrm. simpl.
    apply IH; simpl; lia.
  - unfold bind, ret. simpl. apply IH; lia.
Qed.

(** [unregister_cluster] on the object: the list is scanned, then the store
    deletes. *)
Lemma unregister_cluster_removes (cluster_id : string) (self : t) (w : World Store) :
  exists regs',
    unregister_cluster Store db cluster_id (self, w)
      = (fst (registry_delete db (store Store w) cluster_id),
         (set_rt regs' self,
          mkWorld Store (snd (registry_delete db (store Store w) cluster_id))
                  (rpc_calls Store w)))
    /\ incl regs' (rt self).
Proof.
  destruct (unregister_scan_removes (S (List.length (rt self))) 0 cluster_id self w)
    as (regs' & Hscan & Hincl & _).
  exists regs'. split; [|exact Hincl].
  unfold unregister_cluster, bind at 1. unfold self_, gets. simpl fst.
  unfold bind. rewrite Hscan. unfold db_call. simpl.
  now destruct (registry_delete db (store Store w) cluster_id).
Qed.

End ServiceFacts.

(** ** [unregister_cluster] on an owned set with one registry per cluster *)

Lemma Registry_eqb_cluster_id (a b : Registry.t) :
  Registry.eqb a b = true -> Registry.cluster_id a = Registry.cluster_id b.
Proof.
  unfold Registry.eqb. rewrite !andb_true_iff.
  intros [[[[H _] _] _] _]. now apply String.eqb_eq.
Qed.

Lemma filter_other_cluster_all (cluster_id : string) (regs : list Registry.t) :
  (forall r, In r regs -> Registry.cluster_id r <> cluster_id) ->
  filter (other_cluster cluster_id) regs = regs.
Proof.
  induction regs as [|y rest IH]; simpl; intros H; [reflexivity|].
  unfold other_cluster at 1.
  destruct (String.eqb_spec (Registry.cluster_id y) cluster_id) as [Heq|Hne]; simpl.
  - exfalso. apply (H y); auto.
  - f_equal. apply IH. auto.
Qed.

Lemma filter_other_cluster_none
    (cluster_id : string) (regs : list Registry.t) (r : Registry.t) :
  In r (filter (other_cluster cluster_id) regs) -> Registry.cluster_id r <> cluster_id.
Proof.
  intros Hin. apply filter_In in Hin as [_ Hother].
  unfold other_cluster in Hother.
  now destruct (String.eqb_spec (Registry.cluster_id r) cluster_id).
Qed.

Lemma NoDup_cluster_ids_filter (f : Registry.t -> bool) (regs : list Registry.t) :
  NoDup (map Registry.cluster_id regs) ->
  NoDup (map Registry.cluster_id (filter f regs)).
Proof.
  induction regs as [|y rest IH]; simpl; intros Hnd; [constructor|].
  inversion Hnd as [|? ? Hnotin Hnd']; subst.
  destruct (f y); simpl; auto.
  constructor; auto.
  intros Hin. apply Hnotin.
  apply in_map_iff in Hin as (x & Hx & Hin). apply filter_In in Hin as [Hin _].
  apply in_map_iff. eauto.
Qed.

(** With one registry per cluster, [remove] drops exactly the registries of
    the removed one's cluster. *)
Lemma py_list_remove_unique (r : Registry.t) (regs : list Registry.t) :
  NoDup (map Registry.cluster_id regs) -> In r regs ->
  py_list_remove r regs = Some (filter (other_cluster (Registry.cluster_id r)) regs).
Proof.
  induction regs as [|y rest IH]; simpl; [tauto|].
  intros Hnd Hin. inversion Hnd as [|? ? Hnotin Hnd']; subst.
  unfold other_cluster at 1.
  destruct (Registry.eqb y r) eqn:E.
  - apply Registry_eqb_cluster_id in E. rewrite E, String.eqb_refl. simpl.
    f_equal. symmetry. apply filter_other_cluster_all.
    intros z Hz Heq. apply Hnotin. rewrite E, <- Heq. now apply in_map.
  - destruct Hin as [->|Hin]; [now rewrite Registry_eqb_refl in E|].
    rewrite (IH Hnd' Hin).
    destruct (String.eqb_spec (Registry.cluster_id y) (Registry.cluster_id r))
      as [Heq|Hne]; simpl; [|reflexivity].
    exfalso. apply Hnotin. rewrite Heq. now apply in_map.
Qed.

Section UniqueClusters.

Import HealthManager.

Variable Store : Type.
Variable db : DbApi Store.

(** A scan for a cluster that has no registry changes nothing. *)
Lemma unregister_scan_no_match (fuel : nat) :
  forall (index : nat) (cluster_id : string) (self : t) (w : World Store),
    (forall r, In r (rt self) -> Registry.cluster_id r <> cluster_id) ->
    unregister_scan Store fuel index cluster_id (self, w) = (Ok tt, (self, w)).
Proof.
  induction fuel as [|fuel IH]; intros index cid self w Hnone; [reflexivity|].
  simpl. unfold bind at 1. unfold self_, gets. simpl.
  destruct (nth_error (rt self) index) as [registry|] eqn:Enth; [|reflexivity].
  destruct (String.eqb_spec (Registry.cluster_id registry) cid) as [Heq|Hne].
  - exfalso. apply (Hnone registry); eauto using nth_error_In.
  - unfold bind, ret. simpl. now apply IH.
Qed.

(** With one registry per cluster and none for the cluster before the
    index, the scan removes the registries of the cluster, all of them. *)
Lemma unregister_scan_unique (fuel : nat) :
  forall (index : nat) (cluster_id : string) (self : t) (w : World Store),
    NoDup (map Registry.cluster_id (rt self)) ->
    (forall j r, (j < index)%nat -> nth_error (rt self) j = Some r ->
                 Registry.cluster_id r <> cluster_id) ->
    (List.length (rt self) - index < fuel)%nat ->
    unregister_scan Store fuel index cluster_id (self, w)
    = (Ok tt, (set_rt (filter (other_cluster cluster_id) (rt self)) self, w)).
Proof.
  induction fuel as [|fuel IH]; intros index cid self w Hnd Hbefore Hfuel; [lia|].
  simpl. unfold bind at 1. unfold self_, gets. simpl.
  destruct (nth_error (rt self) index) as [registry|] eqn:Enth.
  - assert (Hlt : (index < List.length (rt self))%nat)
      by (apply nth_error_Some; congruence).
    destruct (String.eqb_spec (Registry.cluster_id registry) cid) as [Heq|Hne].
    + subst cid.
      unfold bind, rt_remove, self_, gets, update_self, modify, bind. simpl.
      rewrite (py_list_remove_unique registry (rt self) Hnd (nth_error_In _ _ Enth)).
      simpl. apply unregister_scan_no_match. simpl.
      intros r. apply filter_other_cluster_none.
    + unfold bind, ret. simpl. apply IH; [exact Hnd| |lia].
      intros j r Hj Hnth.
      destruct (Nat.eq_dec j index) as [->|Hneq]; [congruence|].
      apply (Hbefore j r); [lia | exact Hnth].
  - rewrite filter_other_cluster_all, set_rt_same; [reflexivity|].
    intros r Hin. apply In_nth_error in Hin as (j & Hj).
    apply (Hbefore j r); [|exact Hj].
    apply nth_error_None in Enth.
    assert ((j < List.length (rt self))%nat) by (apply nth_error_Some; congruence).
    lia.
Qed.

(** On an owned set with one registry per cluster, [unregister_cluster]
    removes the registry of the cluster, if there is one, and then asks the
    store to delete; the outcome of the call is that of the delete. *)
Lemma unregister_cluster_unique (cluster_id : string) (self : t) (w : World Store) :
  NoDup (map Registry.cluster_id (rt self)) ->
  unregister_cluster Store db cluster_id (self, w)
  = (fst (registry_delete db (store Store w) cluster_id),
     (set_rt (filter (other_cluster cluster_id) (rt self)) self,
      mkWorld Store (snd (registry_delete db (store Store w) cluster_id))
              (rpc_calls Store w))).
Proof.
  intros Hnd.
  unfold unregister_cluster, bind at 1. unfold self_, gets. simpl fst.
  unfold bind.
  rewrite (unregister_scan_unique (S (List.length (rt self))) 0 cluster_id self w Hnd);
    [|intros; lia|lia].
  unfold db_call. simpl.
  now destruct (registry_delete db (store Store w) cluster_id).
Qed.

End UniqueClusters.

(** Against the store of the spec and on an owned set with one registry per
    cluster, a second [unregister_cluster] changes nothing: both calls return
    normally, and after either the owned set has no registry and the store
    no row for the cluster. *)
Lemma unregister_cluster_unique_twice
    (alive : string -> bool) (cluster_id : string) (self : HealthManager.t)
    (w : HealthManager.World SpecStore.t) :
  NoDup (map Registry.cluster_id (HealthManager.rt self)) ->
  let once :=
    HealthManager.unregister_cluster SpecStore.t (SpecStore.db_api alive)
      cluster_id (self, w) in
  let twice :=
    HealthManager.unregister_cluster SpecStore.t (SpecStore.db_api alive)
      cluster_id (snd once) in
  fst once = Ok tt /\ twice = (Ok tt, snd once)
  /\ (forall r, In r (HealthManager.rt (fst (snd once))) ->
                Registry.cluster_id r <> cluster_id)
  /\ SpecStore.has_row cluster_id (HealthManager.store _ (snd (snd once))) = false.
Proof.
  intros Hnd. cbv zeta.
  rewrite (unregister_cluster_unique SpecStore.t (SpecStore.db_api alive)
             cluster_id self w Hnd).
  simpl.
  rewrite unregister_cluster_unique
    by (simpl; now apply NoDup_cluster_ids_filter).
  simpl.
  assert (Hidem : forall rows,
             filter (other_cluster cluster_id) (filter (other_cluster cluster_id) rows)
             = filter (other_cluster cluster_id) rows).
  { intros rows. apply filter_other_cluster_all.
    intros r. apply filter_other_cluster_none. }
  rewrite !Hidem.
  repeat split.
  - intros r. apply filter_other_cluster_none.
  - unfold SpecStore.has_row.
    destruct (existsb _ _) eqn:Hex; [|reflexivity].
    apply existsb_exists in Hex as (r & Hin & Heq).
    apply filter_other_cluster_none in Hin. now apply String.eqb_eq in Heq.
Qed.

Lemma set_TG_same (self : HealthManager.t) :
  HealthManager.set_TG (HealthManager.TG self) self = self.
Proof. now destruct self. Qed.

Section TimerFacts.

Import HealthManager.

Variable Store : Type.
Variable cluster_check : list string -> string -> result unit.

Lemma for_each_cons {S A : Type} (x : A) (xs : list A) (f : A -> M S unit) (s : S) :
  for_each (x :: xs) f s
  = match f x s with
    | (Ok _, s') => for_each xs f s'
    | (Raise e, s') => (Raise e, s')
    end.
Proof. reflexivity. Qed.

(** One turn of the loop on a registry that is not polled: nothing. *)
Lemma body_not_polling (r : Registry.t) (self : t) (w : World Store) :
  is_polling r = false ->
  start_periodic_tasks_body Store cluster_check r (self, w) = (Ok tt, (self, w)).
Proof. unfold start_periodic_tasks_body, is_polling. now intros ->. Qed.

(** One turn of the loop on a polled registry: the remote check is called at
    once; a timer is added only if it returns. *)
Lemma body_polling (r : Registry.t) (self : t) (w : World Store) :
  is_polling r = true ->
  start_periodic_tasks_body Store cluster_check r (self, w)
  = let w1 := mkWorld Store (store Store w)
                      (rpc_calls Store w ++ [Registry.cluster_id r]) in
    match cluster_check (rpc_calls Store w) (Registry.cluster_id r) with
    | Ok _ =>
        (Ok tt,
         (set_TG (TG self ++ [polling_timer (periodic_interval_max self) r]) self, w1))
    | Raise e => (Raise e, (self, w1))
    end.
Proof.
  unfold start_periodic_tasks_body, is_polling. intros ->.
  unfold bind, self_, gets, _periodic_check, bind, rpc_cluster_check. simpl.
  now destruct (cluster_check (rpc_calls Store w) (Registry.cluster_id r)).
Qed.

(** The loop walks the polling registries in order.  For each it calls the
    remote check at once; if the check returns, a timer with the capped
    interval and the callback [None] is added, and if it raises the loop is
    abandoned there.  [done] are the registries that got a timer, [rest]
    those that did not. *)
Lemma polling_loop (regs : list Registry.t) :
  forall (self : t) (w : World Store),
  exists done rest,
    let out := for_each regs (start_periodic_tasks_body Store cluster_check) (self, w) in
    filter is_polling regs = (done ++ rest)%list
    /\ fst (snd out)
       = set_TG (TG self ++ map (polling_timer (periodic_interval_max self)) done) self
    /\ store Store (snd (snd out)) = store Store w
    /\ rpc_calls Store (snd (snd out))
       = (rpc_calls Store w ++ map Registry.cluster_id (done ++ firstn 1 rest))%list
    /\ (fst out = Ok tt -> rest = []).
Proof.
  induction regs as [|r regs IH]; intros self w; cbv zeta in *.
  - exists [], []. simpl. rewrite !app_nil_r, set_TG_same. auto.
  - rewrite for_each_cons.
    change (filter is_polling (r :: regs))
      with (if is_polling r then r :: filter is_polling regs
            else filter is_polling regs).
    destruct (is_polling r) eqn:Epoll.
    + rewrite (body_polling r self w Epoll). cbv zeta.
      destruct (cluster_check (rpc_calls Store w) (Registry.cluster_id r)) as [[]|e].
      * match goal with |- context [for_each regs _ (?s1, ?w1)] =>
          destruct (IH s1 w1) as (done & rest & Hfilter & Hself & Hstore & Hcalls & Hok)
        end.
        exists (r :: done), rest. rewrite Hfilter, Hself, Hstore, Hcalls. simpl.
        rewrite <- !app_assoc. simpl. auto.
      * exists [], (r :: filter is_polling regs). simpl.
        rewrite app_nil_r, set_TG_same. repeat split; auto. discriminate.
    + rewrite (body_not_polling r self w Epoll).
      destruct (IH self w) as (done & rest & Hfilter & Hself & Hstore & Hcalls & Hok).
      exists done, rest. auto.
Qed.

(** [start_periodic_tasks] is the idle timer followed by the loop over the
    registry list. *)
Lemma start_periodic_tasks_unfold (period : Z) (self : t) (w : World Store) :
  start_periodic_tasks Store cluster_check period (self, w)
  = for_each (rt self) (start_periodic_tasks_body Store cluster_check)
      (set_TG (TG self ++ [mkTimer period Method_idle_task]) self, w).
Proof. reflexivity. Qed.

(** [start_periodic_tasks] changes nothing of the object but its timers. *)
Lemma start_periodic_tasks_self (period : Z) (self : t) (w : World Store) :
  exists timers,
    fst (snd (start_periodic_tasks Store cluster_check period (self, w)))
    = set_TG timers self.
Proof.
  rewrite start_periodic_tasks_unfold.
  destruct (polling_loop (rt self)
              (set_TG (TG self ++ [mkTimer period Method_idle_task]) self) w)
    as (done & rest & _ & Hself & _).
  rewrite Hself. eexists. reflexivity.
Qed.

(** Whatever the owned set, the timers [start_periodic_tasks] adds carry the
    idle task or [None], never the check, and the remote checks of the
    registries reached have all been called when it returns. *)
Lemma start_periodic_tasks_callbacks (period : Z) (self : t) (w : World Store) :
  (forall timer,
     In timer (TG (fst (snd (start_periodic_tasks Store cluster_check period (self, w))))) ->
     In timer (TG self)
     \/ timer_callback timer = Method_idle_task
     \/ timer_callback timer = PyNone)
  /\ exists done rest,
       filter is_polling (registries self) = (done ++ rest)%list
       /\ rpc_calls Store
            (snd (snd (start_periodic_tasks Store cluster_check period (self, w))))
          = (rpc_calls Store w ++ map Registry.cluster_id (done ++ firstn 1 rest))%list.
Proof.
  rewrite start_periodic_tasks_unfold.
  destruct (polling_loop (rt self)
              (set_TG (TG self ++ [mkTimer period Method_idle_task]) self) w)
    as (done & rest & Hfilter & Hself & _ & Hcalls & _).
  split; [|now exists done, rest].
  rewrite Hself. simpl. intros timer Hin.
  rewrite !in_app_iff in Hin. destruct Hin as [[Hin|[<-|[]]]|Hin]; auto.
  apply in_map_iff in Hin as (r & <- & _). auto.
Qed.

(** [stop] empties the thread group and touches nothing else. *)
Lemma stop_cancels_all_timers (self : t) (w : World Store) :
  stop Store (self, w) = (Ok tt, (set_TG [] self, w)).
Proof. reflexivity. Qed.

(** C5. Every timer that [start_periodic_tasks] schedules for a subscription
    runs at [min(subscription.interval, periodic_interval_max)]: the timers
    added after the idle timer are, in order, those of the polling
    subscriptions that were reached ([done], all of them when the call
    returns), each with that interval.  With the maximum at 60, a
    subscription with interval 10 is scheduled at 10 seconds and one with
    interval 120 at 60 seconds. *)
Theorem start_periodic_tasks_interval_is_min (period : Z) :
  (forall (self : t) (w : World Store),
   exists done rest,
     filter is_polling (registries self) = (done ++ rest)%list
     /\ TG (fst (snd (start_periodic_tasks Store cluster_check period (self, w))))
        = (TG self
           ++ mkTimer period Method_idle_task
              :: map (fun r => mkTimer (Z.min (Registry.interval r)
                                              (periodic_interval_max self))
                                       PyNone)
                     done)%list
     /\ (fst (start_periodic_tasks Store cluster_check period (self, w)) = Ok tt ->
         rest = []))
  /\ map timer_interval
       (TG (fst (snd (start_periodic_tasks SpecStore.t check_returns period
                        (set_rt [reg_c1; reg_c2_slow] hm_A, world_of [])))))
     = [period; 10; 60].
Proof.
  split; [|reflexivity].
  intros self w. rewrite start_periodic_tasks_unfold.
  destruct (polling_loop (rt self)
              (set_TG (TG self ++ [mkTimer period Method_idle_task]) self) w)
    as (done & rest & Hfilter & Hself & _ & _ & Hok).
  exists done, rest. rewrite Hself. simpl.
  rewrite <- app_assoc. auto.
Qed.

End TimerFacts.

(** ** Timer installation *)

(** C1. The owned set holds one polling subscription, for cluster [c1], and
    the remote check returns.  [start_periodic_tasks] has then already called
    the check for [c1] when it returns, before any timer has fired, and the
    timer it added for [c1] has [None] as its callback, not the check. *)
Theorem start_periodic_tasks_checks_at_once (period : Z) :
  HealthManager.start_periodic_tasks SpecStore.t check_returns period
    (HealthManager.set_rt [reg_c1] hm_A, world_of [reg_c1])
  = (Ok tt,
     (HealthManager.set_TG
        [mkTimer period Method_idle_task; mkTimer 10 PyNone]
        (HealthManager.set_rt [reg_c1] hm_A),
      HealthManager.mkWorld SpecStore.t [reg_c1] ["c1"])).
Proof. reflexivity. Qed.

(** C7. The store holds two polling subscriptions owned by this engine and
    the remote check for the first one, [c1], times out.  [start] loads both
    into the owned set, adds the idle timer, calls the check for [c1] and
    raises: neither subscription has a timer, and the check for [c2], which
    would have returned, is never reached. *)
Theorem start_stops_at_failed_check (period : Z) :
  HealthManager.start SpecStore.t spec_db (check_fails_for "c1") period
    (hm_A, world_of [reg_c1; reg_c2_slow])
  = (Raise MessagingTimeout,
     (HealthManager.set_TG
        [mkTimer period Method_idle_task]
        (HealthManager.set_rt [reg_c1; reg_c2_slow] hm_A),
      HealthManager.mkWorld SpecStore.t [reg_c1; reg_c2_slow] ["c1"])).
Proof. reflexivity. Qed.

(** ** The recovery dispatcher *)

(** C3, as stated, fails: when the remote check times out,
    [_periodic_check] raises the timeout to its caller. *)
Lemma periodic_check_raises_timeout :
  fst (HealthManager._periodic_check SpecStore.t check_times_out "c1"
         (hm_A, world_of []))
  = Raise MessagingTimeout.
Proof. reflexivity. Qed.

(** C3, amended. [_periodic_check] makes exactly one remote call, for the
    cluster it was given, and changes nothing else; it returns [None] when
    the call returns and raises what the call raises, so a failure reaches
    the caller and nothing is retried. *)
Theorem periodic_check_calls_once_and_propagates
    (Store : Type) (cluster_check : list string -> string -> result unit)
    (cluster_id : string) (self : HealthManager.t) (w : HealthManager.World Store) :
  snd (HealthManager._periodic_check Store cluster_check cluster_id (self, w))
  = (self,
     HealthManager.mkWorld Store (HealthManager.store Store w)
       (HealthManager.rpc_calls Store w ++ [cluster_id]))
  /\ fst (HealthManager._periodic_check Store cluster_check cluster_id (self, w))
     = match cluster_check (HealthManager.rpc_calls Store w) cluster_id with
       | Ok _ => Ok PyNone
       | Raise e => Raise e
       end.
Proof.
  unfold HealthManager._periodic_check, HealthManager.rpc_cluster_check, bind, ret.
  simpl.
  now destruct (cluster_check (HealthManager.rpc_calls Store w) cluster_id).
Qed.

(** ** The notification wrapper *)

(** C6, as stated, fails: when the call fails with anything but a timeout,
    [notify] raises instead of returning a boolean. *)
Lemma notify_raises_remote_error :
  notify 2 "1.0" "engine-health-mgr" call_fails_remotely None (Some engine_A)
         "register_cluster" [ArgStr "c1"] []
  = Raise (RemoteError "DuplicateSubscription").
Proof. reflexivity. Qed.

(** C6, amended. [notify] makes one call, with the configured timeout, to
    the given engine or, without one, to the topic alone.  It returns [True]
    exactly when the call returns, [False] exactly when the call raises
    [MessagingTimeout], and raises any other exception of the call. *)
Theorem notify_true_false_or_raise
    (timeout : Z) (api_version topic : string)
    (call : CallContext -> RequestContext -> string -> list PyArg ->
            list (string * PyArg) -> result unit)
    (current : option RequestContext) (engine_id : option string)
    (method : string) (args : list PyArg) (kwargs : list (string * PyArg)) :
  let outcome :=
    call (prepare api_version timeout topic
                  (if truthy engine_id then engine_id else None))
         (match current with Some ctx => ctx | None => mkRequestContext true end)
         method args kwargs in
  let answer :=
    notify timeout api_version topic call current engine_id method args kwargs in
  (answer = Ok true <-> outcome = Ok tt)
  /\ (answer = Ok false <-> outcome = Raise MessagingTimeout)
  /\ (forall e, answer = Raise e <-> outcome = Raise e /\ e <> MessagingTimeout).
Proof.
  cbv zeta. unfold notify, notify_call_context, notify_ctx.
  destruct (truthy engine_id);
    match goal with |- context [call ?cc ?ctx method args kwargs] =>
      destruct (call cc ctx method args kwargs) as [[]|[]]
    end;
    repeat split; try discriminate; try congruence;
    try (intros [? ?]; congruence);
    try (intros ?; split; congruence).
Qed.

(** ** Registration *)

(** C2, as stated, fails: registering a polling subscription on a fresh
    instance succeeds, persists the row and adds it to the owned set, and
    leaves the thread group without any timer. *)
Lemma register_cluster_installs_no_timer :
  HealthManager.register_cluster SpecStore.t spec_db
    "c1" "NODE_STATUS_POLLING" 10 [] (hm_A, world_of [])
  = (Ok tt, (HealthManager.set_rt [reg_c1] hm_A, world_of [reg_c1]))
  /\ HealthManager.TG (HealthManager.set_rt [reg_c1] hm_A) = [].
Proof. split; reflexivity. Qed.

(** C2, amended. [register_cluster] calls the store's create once, with the
    calling instance as owner, and leaves the store as the create left it; it
    installs no timer and makes no remote call, whatever the check type.  If
    the create returns a row, the call returns normally and the owned set
    gains that row at its end; if the create raises, the call raises the same
    exception and the object is unchanged.  Against the store of the spec the
    create raises only [DuplicateSubscription], exactly when a row for the
    cluster exists, and otherwise persists the row it returns. *)
Theorem register_cluster_persists_and_appends
    (Store : Type) (db : DbApi Store) (self : HealthManager.t)
    (w : HealthManager.World Store)
    (cluster_id check_type : string) (interval : Z) (params : Params) :
  let created :=
    registry_create db (HealthManager.store Store w) cluster_id check_type interval
                    params (HealthManager.engine_id self) in
  let out :=
    HealthManager.register_cluster Store db cluster_id check_type interval params
                                   (self, w) in
  (HealthManager.TG (fst (snd out)) = HealthManager.TG self
   /\ HealthManager.rpc_calls Store (snd (snd out)) = HealthManager.rpc_calls Store w
   /\ HealthManager.store Store (snd (snd out)) = snd created
   /\ match fst created with
      | Ok row =>
          fst out = Ok tt
          /\ HealthManager.rt (fst (snd out)) = (HealthManager.rt self ++ [row])%list
      | Raise e => fst out = Raise e /\ fst (snd out) = self
      end)
  /\ (forall (alive : string -> bool) (rows : SpecStore.t) (owner : string),
        registry_create (SpecStore.db_api alive) rows cluster_id check_type interval
                        params owner
        = if SpecStore.has_row cluster_id rows
          then (Raise DuplicateSubscription, rows)
          else (Ok (Registry.mk cluster_id check_type interval params owner),
                (rows ++ [Registry.mk cluster_id check_type interval params owner])%list)).
Proof.
  cbv zeta. split; [|reflexivity].
  unfold HealthManager.register_cluster, bind, HealthManager.self_, gets,
    HealthManager.db_call, HealthManager.update_self, modify.
  simpl.
  destruct (registry_create db (HealthManager.store Store w) cluster_id check_type
              interval params (HealthManager.engine_id self)) as [[row|e] s'];
    simpl; auto.
Qed.

(** C10. If the store's create raises, [register_cluster] raises the same
    exception and the object, its owned set included, is as it was; only the
    store is as the failed create left it. *)
Theorem register_cluster_failed_create
    (Store : Type) (db : DbApi Store) (self : HealthManager.t)
    (w : HealthManager.World Store)
    (cluster_id check_type : string) (interval : Z) (params : Params)
    (e : Exn) (s' : Store)
    (Hfail : registry_create db (HealthManager.store Store w) cluster_id check_type
               interval params (HealthManager.engine_id self) = (Raise e, s')) :
  HealthManager.register_cluster Store db cluster_id check_type interval params (self, w)
  = (Raise e, (self, HealthManager.mkWorld Store s' (HealthManager.rpc_calls Store w))).
Proof.
  unfold HealthManager.register_cluster, bind, HealthManager.self_, gets,
    HealthManager.db_call.
  simpl. now rewrite Hfail.
Qed.

(** The store already holds [c1]: registering it again raises and leaves the
    owned set of engine A as it was. *)
Lemma register_cluster_failed_create_witness :
  registry_create spec_db [reg_c1] "c1" "NODE_STATUS_POLLING" 20 [] engine_A
  = (Raise DuplicateSubscription, [reg_c1])
  /\ HealthManager.register_cluster SpecStore.t spec_db
       "c1" "NODE_STATUS_POLLING" 20 [] (HealthManager.set_rt [reg_c1] hm_A, world_of [reg_c1])
     = (Raise DuplicateSubscription,
        (HealthManager.set_rt [reg_c1] hm_A, world_of [reg_c1])).
Proof.
  split; [reflexivity|].
  apply (register_cluster_failed_create SpecStore.t spec_db
           (HealthManager.set_rt [reg_c1] hm_A) (world_of [reg_c1])
           "c1" "NODE_STATUS_POLLING" 20 [] DuplicateSubscription [reg_c1]).
  reflexivity.
Defined.

(** ** Unregistration *)

(** C4. Engine A registers [c1]; engine B, asked to unregister [c1], deletes
    the row from the shared store; engine A registers [c1] again, which the
    store now accepts, so that A's owned set holds two registries for [c1].
    One call of [unregister_cluster] on A then returns normally and leaves
    the second registry in the owned set: the removal of the first shifts
    the second under the iterator's index, and the loop ends without looking
    at it.  A second call removes it. *)
Theorem unregister_cluster_skips_next_entry :
  let s1 := snd (HealthManager.register_cluster SpecStore.t spec_db
                   "c1" "NODE_STATUS_POLLING" 10 [] (hm_A, world_of [])) in
  let s2 := snd (HealthManager.unregister_cluster SpecStore.t spec_db
                   "c1" (hm_B, snd s1)) in
  let s3 := snd (HealthManager.register_cluster SpecStore.t spec_db
                   "c1" "NODE_STATUS_POLLING" 20 [] (fst s1, snd s2)) in
  let once := HealthManager.unregister_cluster SpecStore.t spec_db "c1" s3 in
  let twice := HealthManager.unregister_cluster SpecStore.t spec_db "c1" (snd once) in
  s3 = (HealthManager.set_rt [reg_c1; reg_c1_again] hm_A, world_of [reg_c1_again])
  /\ once = (Ok tt, (HealthManager.set_rt [reg_c1_again] hm_A, world_of []))
  /\ twice = (Ok tt, (hm_A, world_of [])).
Proof. cbv zeta. split; [|split]; reflexivity. Qed.

(** ** The owner of the owned set *)

Lemma load_runtime_registry_result
    (Store : Type) (db : DbApi Store) (self : HealthManager.t)
    (w : HealthManager.World Store) :
  HealthManager._load_runtime_registry Store db (self, w)
  = match registry_claim db (HealthManager.store Store w) (HealthManager.engine_id self) with
    | (Ok db_registries, s') =>
        (Ok tt,
         (HealthManager.set_rt
            (filter (fun r => String.eqb (Registry.engine_id r)
                                         (HealthManager.engine_id self))
                    db_registries) self,
          HealthManager.mkWorld Store s' (HealthManager.rpc_calls Store w)))
    | (Raise e, s') =>
        (Raise e, (self, HealthManager.mkWorld Store s' (HealthManager.rpc_calls Store w)))
    end.
Proof.
  unfold HealthManager._load_runtime_registry, bind, HealthManager.self_, gets,
    HealthManager.db_call, HealthManager.update_self, modify.
  simpl.
  now destruct (registry_claim db (HealthManager.store Store w)
                  (HealthManager.engine_id self)) as [[regs|e] s'].
Qed.

(** X8. When [start] returns normally, the claim returned, the owned set is the
    claimed rows of this engine, and the thread group has gained the idle
    timer and one timer per polling registry of the owned set, in order,
    each at the capped interval and with [None] as its callback. *)
Lemma start_timers_when_it_returns
    (Store : Type) (db : DbApi Store)
    (cluster_check : list string -> string -> result unit) (period : Z)
    (self : HealthManager.t) (w : HealthManager.World Store) :
  fst (HealthManager.start Store db cluster_check period (self, w)) = Ok tt ->
  exists db_registries s',
    registry_claim db (HealthManager.store Store w) (HealthManager.engine_id self)
    = (Ok db_registries, s')
    /\ let owned :=
         filter (fun r => String.eqb (Registry.engine_id r)
                                     (HealthManager.engine_id self))
                db_registries in
       let self' :=
         fst (snd (HealthManager.start Store db cluster_check period (self, w))) in
       HealthManager.rt self' = owned
       /\ HealthManager.TG self'
          = (HealthManager.TG self
             ++ mkTimer period Method_idle_task
                :: map (polling_timer (HealthManager.periodic_interval_max self))
                       (filter is_polling owned))%list.
Proof.
  unfold HealthManager.start, bind. rewrite load_runtime_registry_result.
  destruct (registry_claim db (HealthManager.store Store w)
              (HealthManager.engine_id self)) as [[regs|e] s']; [|discriminate].
  rewrite start_periodic_tasks_unfold. cbv zeta.
  match goal with |- context [for_each ?regs' _ (?s1, ?w1)] =>
    destruct (polling_loop Store cluster_check regs' s1 w1)
      as (done & rest & Hfilter & Hself & _ & _ & Hok)
  end.
  intros Hret. specialize (Hok Hret). subst rest. rewrite app_nil_r in Hfilter.
  exists regs, s'. split; [reflexivity|].
  rewrite Hself. simpl in *. rewrite Hfilter, <- app_assoc. auto.
Qed.

Lemma owned_by_self_filter (self : HealthManager.t) (regs : list Registry.t) :
  owned_by_self
    (HealthManager.set_rt
       (filter (fun r => String.eqb (Registry.engine_id r) (HealthManager.engine_id self))
               regs) self).
Proof.
  unfold owned_by_self. simpl. apply Forall_forall.
  intros r Hr. apply filter_In in Hr. now apply String.eqb_eq.
Qed.

Lemma owned_by_self_incl (self : HealthManager.t) (regs : list Registry.t) :
  owned_by_self self -> incl regs (HealthManager.rt self) ->
  owned_by_self (HealthManager.set_rt regs self).
Proof.
  unfold owned_by_self. simpl. rewrite !Forall_forall. auto.
Qed.

Lemma spec_create_keeps_owner (alive : string -> bool) :
  create_keeps_owner (SpecStore.db_api alive).
Proof.
  intros s cid ct iv ps e r s'. simpl. unfold SpecStore.create.
  destruct (SpecStore.has_row cid s); [discriminate|].
  intros H. injection H as <- _. reflexivity.
Qed.

(** C9. Let the store's create return rows that carry the owner they were
    given, and let every registry of the owned set name this instance as its
    owner.  Then the same holds after each operation.  The startup load
    keeps, of the rows [claim] returned, exactly those whose [engine_id] is
    its own; [register_cluster] adds a row created with its own
    [engine_id]; [unregister_cluster] leaves only registries that were
    there; [start], [start_periodic_tasks] and [stop] do not alter the
    outcome of the load.  The freshly constructed object has an empty owned
    set. *)
Theorem owned_set_names_own_engine
    (Store : Type) (db : DbApi Store)
    (cluster_check : list string -> string -> result unit) (period : Z)
    (Hdb : create_keeps_owner db)
    (self : HealthManager.t) (w : HealthManager.World Store)
    (Hinv : owned_by_self self) :
  owned_by_self (fst (snd (HealthManager._load_runtime_registry Store db (self, w))))
  /\ (forall db_registries s',
        registry_claim db (HealthManager.store Store w) (HealthManager.engine_id self)
        = (Ok db_registries, s') ->
        HealthManager.rt
          (fst (snd (HealthManager._load_runtime_registry Store db (self, w))))
        = filter (fun r => String.eqb (Registry.engine_id r)
                                      (HealthManager.engine_id self))
                 db_registries)
  /\ (forall cluster_id check_type interval params,
        owned_by_self
          (fst (snd (HealthManager.register_cluster Store db
                       cluster_id check_type interval params (self, w)))))
  /\ (forall cluster_id,
        owned_by_self
          (fst (snd (HealthManager.unregister_cluster Store db cluster_id (self, w))))
        /\ incl (HealthManager.rt
                   (fst (snd (HealthManager.unregister_cluster Store db
                                cluster_id (self, w)))))
                (HealthManager.rt self))
  /\ owned_by_self
       (fst (snd (HealthManager.start Store db cluster_check period (self, w))))
  /\ owned_by_self
       (fst (snd (HealthManager.start_periodic_tasks Store cluster_check period (self, w))))
  /\ owned_by_self (fst (snd (HealthManager.stop Store (self, w))))
  /\ (forall engine_id topic version max,
        owned_by_self (HealthManager.init engine_id topic version max)).
Proof.
  assert (Hload : owned_by_self
            (fst (snd (HealthManager._load_runtime_registry Store db (self, w))))).
  { rewrite load_runtime_registry_result.
    destruct (registry_claim db (HealthManager.store Store w)
                (HealthManager.engine_id self)) as [[regs|e] s']; simpl;
      [apply owned_by_self_filter | exact Hinv]. }
  split; [exact Hload|].
  split.
  { intros regs s' Hclaim. rewrite load_runtime_registry_result, Hclaim.
    reflexivity. }
  split.
  { intros cid ct iv ps.
    unfold HealthManager.register_cluster, bind, HealthManager.self_, gets,
      HealthManager.db_call, HealthManager.update_self, modify.
    simpl.
    destruct (registry_create db (HealthManager.store Store w) cid ct iv ps
                (HealthManager.engine_id self)) as [[r|e] s'] eqn:Hcreate;
      simpl; [|exact Hinv].
    unfold owned_by_self. simpl. apply Forall_app. split; [exact Hinv|].
    constructor; [|constructor]. exact (Hdb _ _ _ _ _ _ _ _ Hcreate). }
  split.
  { intros cid.
    destruct (unregister_cluster_removes Store db cid self w) as (regs' & -> & Hincl).
    simpl. split; [now apply owned_by_self_incl | exact Hincl]. }
  split.
  { unfold HealthManager.start, bind.
    destruct (HealthManager._load_runtime_registry Store db (self, w))
      as [[[]|e] [self1 w1]]; simpl in Hload; [|exact Hload].
    destruct (start_periodic_tasks_self Store cluster_check period self1 w1)
      as (timers & ->).
    exact Hload. }
  split.
  { destruct (start_periodic_tasks_self Store cluster_check period self w)
      as (timers & ->).
    exact Hinv. }
  split; [exact Hinv|].
  intros; constructor.
Qed.

(** Engine A, owning [c1], against the store of the spec: after a further
    registration and after a start that claims among rows of another engine,
    every registry of its owned set is its own. *)
Lemma owned_set_names_own_engine_witness :
  create_keeps_owner spec_db
  /\ owned_by_self (HealthManager.set_rt [reg_c1] hm_A)
  /\ owned_by_self
       (fst (snd (HealthManager.register_cluster SpecStore.t spec_db
                    "c2" "NODE_STATUS_POLLING" 120 []
                    (HealthManager.set_rt [reg_c1] hm_A, world_of [reg_c1]))))
  /\ owned_by_self
       (fst (snd (HealthManager.start SpecStore.t spec_db check_returns 60
                    (HealthManager.set_rt [reg_c1] hm_A,
                     world_of [reg_c1; reg_c4_other])))).
Proof.
  assert (Hinv : owned_by_self (HealthManager.set_rt [reg_c1] hm_A))
    by (constructor; [reflexivity | constructor]).
  split; [apply spec_create_keeps_owner|].
  split; [exact Hinv|].
  split.
  - exact (proj1 (proj2 (proj2
      (owned_set_names_own_engine SpecStore.t spec_db check_returns 60
         (spec_create_keeps_owner all_alive)
         (HealthManager.set_rt [reg_c1] hm_A) (world_of [reg_c1]) Hinv)))
      "c2" "NODE_STATUS_POLLING" 120 []).
  - exact (proj1 (proj2 (proj2 (proj2 (proj2
      (owned_set_names_own_engine SpecStore.t spec_db check_returns 60
         (spec_create_keeps_owner all_alive)
         (HealthManager.set_rt [reg_c1] hm_A) (world_of [reg_c1; reg_c4_other])
         Hinv)))))).
Defined.

(** ** Worked runs *)

(** A start over rows of every kind, all checks returning: the polling rows
    of this engine get a timer at the capped interval, the event-driven row
    and the row of the other, live engine get none. *)
Example start_mixed_rows :
  HealthManager.start SpecStore.t spec_db check_returns 60
    (hm_A, world_of [reg_c1; reg_c4_other; reg_c3_events; reg_c2_slow])
  = (Ok tt,
     (HealthManager.set_TG
        [mkTimer 60 Method_idle_task; mkTimer 10 PyNone; mkTimer 60 PyNone]
        (HealthManager.set_rt [reg_c1; reg_c3_events; reg_c2_slow] hm_A),
      HealthManager.mkWorld SpecStore.t
        [reg_c1; reg_c4_other; reg_c3_events; reg_c2_slow] ["c1"; "c2"])).
Proof. reflexivity. Qed.

(** [notify] on a call that returns and on one that times out, to one engine
    and to the topic. *)
Example notify_returns_and_times_out :
  notify 2 "1.0" "engine-health-mgr" call_returns None (Some engine_A)
         "unregister_cluster" [ArgStr "c1"] [] = Ok true
  /\ notify 2 "1.0" "engine-health-mgr" call_times_out None None
            "unregister_cluster" [ArgStr "c1"] [] = Ok false
  /\ notify_call_context 2 "1.0" "engine-health-mgr" (Some engine_A)
     = prepare "1.0" 2 "engine-health-mgr" (Some engine_A)
  /\ notify_call_context 2 "1.0" "engine-health-mgr" None
     = prepare "1.0" 2 "engine-health-mgr" None.
Proof. repeat split; reflexivity. Qed.

(** * Further properties of the health manager *)

(** ** What [unregister_cluster] does to any owned set *)

(** [remove] takes away one registry of the removed one's cluster and no
    registry of another cluster. *)
Lemma py_list_remove_frame (x : Registry.t) (xs xs' : list Registry.t) :
  py_list_remove x xs = Some xs' ->
  filter (other_cluster (Registry.cluster_id x)) xs'
  = filter (other_cluster (Registry.cluster_id x)) xs.
Proof.
  revert xs'. induction xs as [|y rest IH]; simpl; intros xs' H; [discriminate|].
  destruct (Registry.eqb y x) eqn:E.
  - injection H as <-. apply Registry_eqb_cluster_id in E.
    unfold other_cluster at 2. now rewrite E, String.eqb_refl.
  - destruct (py_list_remove x rest) as [rest'|]; [|discriminate].
    injection H as <-. simpl. now rewrite (IH rest' eq_refl).
Qed.

Lemma bind_ok {S A B : Type} (m : M S A) (k : A -> M S B) (s : S) (a : A) (s' : S) :
  m s = (Ok a, s') -> bind m k s = k a s'.
Proof. unfold bind. now intros ->. Qed.


Section ScanFacts.

Import HealthManager.

Variable Store : Type.
Variable db : DbApi Store.

Lemma unregister_scan_frame (fuel : nat) :
  forall (index : nat) (cluster_id : string) (self : t) (w : World Store),
    filter (other_cluster cluster_id)
           (rt (fst (snd (unregister_scan Store fuel index cluster_id (self, w)))))
    = filter (other_cluster cluster_id) (rt self).
Proof.
  induction fuel as [|fuel IH]; intros index cid self w; [reflexivity|].
  simpl. unfold bind at 1. unfold self_, gets. simpl.
  destruct (nth_error (rt self) index) as [registry|] eqn:Enth; [|reflexivity].
  destruct (String.eqb_spec (Registry.cluster_id registry) cid) as [Heq|Hne].
  - destruct (py_list_remove_In registry (rt self) (nth_error_In _ _ Enth))
      as (regs1 & Hrm & _ & _).
    unfold bind, rt_remove, self_, gets, update_self, modify, bind. simpl.
    rewrite Hrm. simpl. rewrite IH. simpl.
    rewrite <- Heq. now apply py_list_remove_frame.
  - unfold bind, ret. simpl. apply IH.
Qed.

Lemma unregister_scan_progress (fuel : nat) :
  forall (index : nat) (cluster_id : string) (self : t) (w : World Store),
    (forall j r, (j < index)%nat -> nth_error (rt self) j = Some r ->
                 Registry.cluster_id r <> cluster_id) ->
    (exists r, In r (rt self) /\ Registry.cluster_id r = cluster_id) ->
    (List.length (rt self) - index < fuel)%nat ->
    (List.length
       (rt (fst (snd (unregister_scan Store fuel index cluster_id (self, w)))))
     < List.length (rt self))%nat.
Proof.
  induction fuel as [|fuel IH]; intros index cid self w Hbefore Hsome Hfuel; [lia|].
  simpl. unfold bind at 1. unfold self_, gets. simpl.
  destruct (nth_error (rt self) index) as [registry|] eqn:Enth.
  - assert (Hlt : (index < List.length (rt self))%nat)
      by (apply nth_error_Some; congruence).
    destruct (String.eqb_spec (Registry.cluster_id registry) cid) as [Heq|Hne].
    + destruct (py_list_remove_In registry (rt self) (nth_error_In _ _ Enth))
        as (regs1 & Hrm & Hlen & _).
      unfold bind, rt_remove, self_, gets, update_self, modify, bind. simpl.
      rewrite Hrm. simpl.
      destruct (unregister_scan_removes Store fuel (S index) cid (set_rt regs1 self) w)
        as (regs' & -> & _ & Hle).
      simpl in *. lia.
    + unfold bind, ret. simpl. apply IH; [|exact Hsome|lia].
      intros j r Hj Hnth.
      destruct (Nat.eq_dec j index) as [->|Hneq]; [congruence|].
      apply (Hbefore j r); [lia | exact Hnth].
  - exfalso. destruct Hsome as (r & Hin & Hcid).
    apply In_nth_error in Hin as (j & Hj).
    apply (Hbefore j r); [|exact Hj|exact Hcid].
    apply nth_error_None in Enth.
    assert ((j < List.length (rt self))%nat) by (apply nth_error_Some; congruence).
    lia.
Qed.

(** The object [unregister_cluster] leaves is the one its loop leaves. *)
Lemma unregister_cluster_object (cluster_id : string) (self : t) (w : World Store) :
  fst (snd (unregister_cluster Store db cluster_id (self, w)))
  = fst (snd (unregister_scan Store (S (List.length (rt self))) 0 cluster_id (self, w))).
Proof.
  destruct (unregister_scan_removes Store (S (List.length (rt self))) 0 cluster_id self w)
    as (regs' & Hscan & _).
  unfold unregister_cluster.
  rewrite (bind_ok (self_ Store rt) _ (self, w) (rt self) (self, w) eq_refl).
  rewrite (bind_ok _ _ _ _ _ Hscan), Hscan.
  unfold db_call. simpl.
  now destruct (registry_delete db (store Store w) cluster_id).
Qed.

End ScanFacts.

Lemma length_registries_split (cluster_id : string) (regs : list Registry.t) :
  (List.length (registries_of cluster_id regs)
   + List.length (filter (other_cluster cluster_id) regs)
   = List.length regs)%nat.
Proof.
  exact (filter_length (fun r => String.eqb (Registry.cluster_id r) cluster_id) regs).
Qed.

Lemma registries_of_In (cluster_id : string) (regs : list Registry.t) (r : Registry.t) :
  In r (registries_of cluster_id regs)
  <-> In r regs /\ Registry.cluster_id r = cluster_id.
Proof.
  unfold registries_of. rewrite filter_In. now rewrite String.eqb_eq.
Qed.

(** X1. [unregister_cluster] never raises of its own: the removal loop always
    returns, the store's delete is then called exactly once, whether or not
    the owned set had a registry for the cluster, and the call returns or
    raises as the delete does.  It makes no remote call, leaves the timers
    and every other field of the object alone, and the owned set it leaves
    holds only registries that were there. *)
Theorem unregister_cluster_outcome
    (Store : Type) (db : DbApi Store) (cluster_id : string)
    (self : HealthManager.t) (w : HealthManager.World Store) :
  let deleted := registry_delete db (HealthManager.store Store w) cluster_id in
  let out := HealthManager.unregister_cluster Store db cluster_id (self, w) in
  fst out = fst deleted
  /\ HealthManager.store Store (snd (snd out)) = snd deleted
  /\ HealthManager.rpc_calls Store (snd (snd out)) = HealthManager.rpc_calls Store w
  /\ HealthManager.TG (fst (snd out)) = HealthManager.TG self
  /\ HealthManager.engine_id (fst (snd out)) = HealthManager.engine_id self
  /\ HealthManager.periodic_interval_max (fst (snd out))
     = HealthManager.periodic_interval_max self
  /\ incl (HealthManager.rt (fst (snd out))) (HealthManager.rt self)
  /\ (List.length (HealthManager.rt (fst (snd out)))
      <= List.length (HealthManager.rt self))%nat.
Proof.
  cbv zeta.
  destruct (unregister_scan_removes Store
              (S (List.length (HealthManager.rt self))) 0 cluster_id self w)
    as (regs' & Hscan & Hincl & Hle).
  unfold HealthManager.unregister_cluster.
  rewrite (bind_ok (HealthManager.self_ Store HealthManager.rt) _
             (self, w) (HealthManager.rt self) (self, w) eq_refl).
  rewrite (bind_ok _ _ _ _ _ Hscan).
  unfold HealthManager.db_call. simpl.
  destruct (registry_delete db (HealthManager.store Store w) cluster_id).
  simpl. auto 10.
Qed.

(** X2. [unregister_cluster(X)] never removes a registry of another cluster:
    whatever the owned set, duplicates included, the registries whose
    cluster is not X are the same after the call, in the same order. *)
Theorem unregister_cluster_keeps_other_clusters
    (Store : Type) (db : DbApi Store) (cluster_id : string)
    (self : HealthManager.t) (w : HealthManager.World Store) :
  filter (other_cluster cluster_id)
    (HealthManager.rt
       (fst (snd (HealthManager.unregister_cluster Store db cluster_id (self, w)))))
  = filter (other_cluster cluster_id) (HealthManager.rt self).
Proof.
  rewrite unregister_cluster_object. apply unregister_scan_frame.
Qed.

(** X3. Every call of [unregister_cluster(X)] on an owned set that holds a
    registry for X removes at least one of them: the number of registries
    for X after the call is at most the number before, less one (and zero
    if there was none). *)
Theorem unregister_cluster_removes_at_least_one
    (Store : Type) (db : DbApi Store) (cluster_id : string)
    (self : HealthManager.t) (w : HealthManager.World Store) :
  (List.length
     (registries_of cluster_id
        (HealthManager.rt
           (fst (snd (HealthManager.unregister_cluster Store db cluster_id (self, w))))))
   <= Nat.pred (List.length (registries_of cluster_id (HealthManager.rt self))))%nat.
Proof.
  rewrite unregister_cluster_object.
  pose proof (unregister_scan_frame Store (S (List.length (HealthManager.rt self)))
                0 cluster_id self w) as Hframe.
  pose proof (unregister_scan_progress Store (S (List.length (HealthManager.rt self)))
                0 cluster_id self w) as Hprog.
  destruct (unregister_scan_removes Store (S (List.length (HealthManager.rt self)))
              0 cluster_id self w)
    as (regs' & Hscan & Hincl & _).
  rewrite Hscan in Hframe, Hprog |- *.
  cbn [fst snd HealthManager.rt HealthManager.set_rt] in Hframe, Hprog |- *.
  pose proof (length_registries_split cluster_id regs') as Hafter.
  pose proof (length_registries_split cluster_id (HealthManager.rt self)) as Hbefore.
  rewrite Hframe in Hafter.
  destruct (registries_of cluster_id (HealthManager.rt self)) as [|r rest] eqn:Hof.
  - destruct (registries_of cluster_id regs') as [|r' rest'] eqn:Hof'; [simpl; lia|].
    exfalso.
    assert (Hin : In r' (registries_of cluster_id regs')) by (rewrite Hof'; now left).
    apply registries_of_In in Hin as [Hin Hcid].
    assert (Hin0 : In r' (registries_of cluster_id (HealthManager.rt self)))
      by (apply registries_of_In; auto).
    now rewrite Hof in Hin0.
  - assert (Hsome : exists r0, In r0 (HealthManager.rt self)
                               /\ Registry.cluster_id r0 = cluster_id).
    { exists r. apply registries_of_In. rewrite Hof. now left. }
    assert ((List.length regs' < List.length (HealthManager.rt self))%nat)
      by (apply Hprog; [intros; lia | exact Hsome | lia]).
    simpl in *. lia.
Qed.

Lemma registries_of_other_cluster (cluster_id : string) (regs : list Registry.t) :
  registries_of cluster_id (filter (other_cluster cluster_id) regs) = [].
Proof.
  destruct (registries_of cluster_id (filter (other_cluster cluster_id) regs))
    as [|r rest] eqn:Hof; [reflexivity|].
  exfalso.
  assert (Hin : In r (registries_of cluster_id (filter (other_cluster cluster_id) regs)))
    by (rewrite Hof; now left).
  apply registries_of_In in Hin as [Hin Hcid].
  now apply filter_other_cluster_none in Hin.
Qed.

Lemma filter_same_length {A : Type} (f : A -> bool) (l : list A) :
  List.length (filter f l) = List.length l -> filter f l = l.
Proof.
  induction l as [|a l IH]; simpl; [reflexivity|].
  destruct (f a); simpl; intros H.
  - f_equal. apply IH. lia.
  - pose proof (filter_length_le f l). lia.
Qed.

(** X4. On an owned set with at most one registry per cluster, one call of
    [unregister_cluster(X)] leaves exactly the registries of the other
    clusters, in order, so none for X; the owned set still has at most one
    registry per cluster, and a second call leaves the object as the first
    did. *)
Theorem unregister_cluster_one_registry_per_cluster
    (Store : Type) (db : DbApi Store) (cluster_id : string)
    (self : HealthManager.t) (w : HealthManager.World Store)
    (Hunique : NoDup (map Registry.cluster_id (HealthManager.rt self))) :
  let once := HealthManager.unregister_cluster Store db cluster_id (self, w) in
  let twice := HealthManager.unregister_cluster Store db cluster_id (snd once) in
  HealthManager.rt (fst (snd once))
  = filter (other_cluster cluster_id) (HealthManager.rt self)
  /\ registries_of cluster_id (HealthManager.rt (fst (snd once))) = []
  /\ NoDup (map Registry.cluster_id (HealthManager.rt (fst (snd once))))
  /\ fst (snd twice) = fst (snd once).
Proof.
  cbv zeta.
  rewrite (unregister_cluster_unique Store db cluster_id self w Hunique).
  cbn [fst snd HealthManager.rt HealthManager.set_rt].
  rewrite unregister_cluster_unique
    by (cbn [HealthManager.rt HealthManager.set_rt];
        now apply NoDup_cluster_ids_filter).
  cbn [fst snd HealthManager.rt HealthManager.set_rt].
  rewrite (filter_other_cluster_all cluster_id
             (filter (other_cluster cluster_id) (HealthManager.rt self)))
    by (intros r; apply filter_other_cluster_none).
  repeat split.
  - apply registries_of_other_cluster.
  - now apply NoDup_cluster_ids_filter.
Qed.

(** Engine A owns [c1] and [c2]: unregistering [c1] leaves [c2]. *)
Lemma unregister_cluster_one_registry_per_cluster_witness :
  NoDup (map Registry.cluster_id
           (HealthManager.rt (HealthManager.set_rt [reg_c1; reg_c2_slow] hm_A)))
  /\ HealthManager.rt
       (fst (snd (HealthManager.unregister_cluster SpecStore.t spec_db "c1"
                    (HealthManager.set_rt [reg_c1; reg_c2_slow] hm_A,
                     world_of [reg_c1; reg_c2_slow]))))
     = [reg_c2_slow].
Proof.
  assert (Hunique : NoDup (map Registry.cluster_id
            (HealthManager.rt (HealthManager.set_rt [reg_c1; reg_c2_slow] hm_A)))).
  { constructor; [intros [H|[]]; discriminate H|].
    constructor; [intros []|constructor]. }
  split; [exact Hunique|].
  exact (proj1 (unregister_cluster_one_registry_per_cluster SpecStore.t spec_db "c1"
                  (HealthManager.set_rt [reg_c1; reg_c2_slow] hm_A)
                  (world_of [reg_c1; reg_c2_slow]) Hunique)).
Defined.

(** X5. Registering a cluster and unregistering it again gives the object
    back: if the owned set has no registry for the cluster and the store's
    create returns a row for that cluster, then [register_cluster] followed
    by [unregister_cluster] of the same cluster leaves the object, owned set
    included, exactly as it was before the two calls. *)
Theorem register_then_unregister
    (Store : Type) (db : DbApi Store) (self : HealthManager.t)
    (w : HealthManager.World Store)
    (cluster_id check_type : string) (interval : Z) (params : Params)
    (row : Registry.t) (s1 : Store)
    (Hcreate : registry_create db (HealthManager.store Store w) cluster_id check_type
                 interval params (HealthManager.engine_id self) = (Ok row, s1))
    (Hrow : Registry.cluster_id row = cluster_id)
    (Hnone : forall r, In r (HealthManager.rt self) ->
                       Registry.cluster_id r <> cluster_id) :
  fst (snd (HealthManager.unregister_cluster Store db cluster_id
              (snd (HealthManager.register_cluster Store db cluster_id check_type
                      interval params (self, w)))))
  = self.
Proof.
  assert (Hreg : HealthManager.register_cluster Store db cluster_id check_type
                   interval params (self, w)
                 = (Ok tt,
                    (HealthManager.set_rt (HealthManager.rt self ++ [row]) self,
                     HealthManager.mkWorld Store s1 (HealthManager.rpc_calls Store w)))).
  { unfold HealthManager.register_cluster, bind, HealthManager.self_, gets,
      HealthManager.db_call, HealthManager.update_self, modify.
    simpl. now rewrite Hcreate. }
  rewrite Hreg. cbn [snd].
  set (self1 := HealthManager.set_rt (HealthManager.rt self ++ [row]) self).
  set (w1 := HealthManager.mkWorld Store s1 (HealthManager.rpc_calls Store w)).
  rewrite unregister_cluster_object.
  pose proof (unregister_scan_frame Store (S (List.length (HealthManager.rt self1)))
                0 cluster_id self1 w1) as Hframe.
  pose proof (unregister_scan_progress Store (S (List.length (HealthManager.rt self1)))
                0 cluster_id self1 w1) as Hprog.
  destruct (unregister_scan_removes Store (S (List.length (HealthManager.rt self1)))
              0 cluster_id self1 w1)
    as (regs' & Hscan & _ & _).
  rewrite Hscan in Hframe, Hprog |- *.
  cbn [fst snd HealthManager.rt HealthManager.set_rt self1] in Hframe, Hprog |- *.
  assert (Hlt : (List.length regs' < List.length (HealthManager.rt self ++ [row]))%nat).
  { apply Hprog; [intros; lia| |lia].
    exists row. split; [apply in_or_app; right; now left | exact Hrow]. }
  rewrite filter_app, (filter_other_cluster_all _ _ Hnone) in Hframe.
  simpl in Hframe. unfold other_cluster at 2 in Hframe.
  rewrite Hrow, String.eqb_refl in Hframe. simpl in Hframe.
  rewrite app_nil_r in Hframe.
  rewrite length_app in Hlt. simpl in Hlt.
  assert (Hsame : filter (other_cluster cluster_id) regs' = regs').
  { apply filter_same_length. rewrite Hframe. 
    pose proof (filter_length_le (other_cluster cluster_id) regs') as Hle.
    rewrite Hframe in Hle. lia. }
  rewrite <- Hsame, Hframe.
  now destruct self.
Qed.

(** Engine A registers [c2] beside [c1] and unregisters it again. *)
Lemma register_then_unregister_witness :
  registry_create spec_db [reg_c1] "c2" "NODE_STATUS_POLLING" 120 [] engine_A
  = (Ok reg_c2_slow, [reg_c1; reg_c2_slow])
  /\ Registry.cluster_id reg_c2_slow = "c2"
  /\ fst (snd (HealthManager.unregister_cluster SpecStore.t spec_db "c2"
                 (snd (HealthManager.register_cluster SpecStore.t spec_db "c2"
                         "NODE_STATUS_POLLING" 120 []
                         (HealthManager.set_rt [reg_c1] hm_A, world_of [reg_c1])))))
     = HealthManager.set_rt [reg_c1] hm_A.
Proof.
  split; [reflexivity|]. split; [reflexivity|].
  apply (register_then_unregister SpecStore.t spec_db
           (HealthManager.set_rt [reg_c1] hm_A) (world_of [reg_c1])
           "c2" "NODE_STATUS_POLLING" 120 [] reg_c2_slow [reg_c1; reg_c2_slow]).
  - reflexivity.
  - reflexivity.
  - intros r [<-|[]]. discriminate.
Defined.

(** X6. The removal loop of [unregister_cluster] ends because its iterator
    is exhausted, after at most as many steps as the owned set has
    registries: run with any larger bound on its steps it gives the same
    result as with the bound [unregister_cluster] uses. *)
Theorem unregister_loop_ends
    (Store : Type) (cluster_id : string) (self : HealthManager.t)
    (w : HealthManager.World Store) (fuel : nat)
    (Hfuel : (List.length (HealthManager.rt self) < fuel)%nat) :
  HealthManager.unregister_scan Store fuel 0 cluster_id (self, w)
  = HealthManager.unregister_scan Store (S (List.length (HealthManager.rt self)))
      0 cluster_id (self, w).
Proof.
  apply unregister_scan_fuel; lia.
Qed.

Lemma unregister_loop_ends_witness :
  (List.length (HealthManager.rt (HealthManager.set_rt [reg_c1; reg_c1_again] hm_A))
   < 40)%nat
  /\ HealthManager.unregister_scan SpecStore.t 40 0 "c1"
       (HealthManager.set_rt [reg_c1; reg_c1_again] hm_A, world_of [])
     = HealthManager.unregister_scan SpecStore.t 3 0 "c1"
         (HealthManager.set_rt [reg_c1; reg_c1_again] hm_A, world_of []).
Proof.
  assert (H : (List.length
                 (HealthManager.rt (HealthManager.set_rt [reg_c1; reg_c1_again] hm_A))
               < 40)%nat) by (simpl; lia).
  split; [exact H|].
  exact (unregister_loop_ends SpecStore.t "c1"
           (HealthManager.set_rt [reg_c1; reg_c1_again] hm_A) (world_of []) 40 H).
Defined.

(** ** Remote checks and timers over several calls *)


(** When [start_periodic_tasks] returns normally the object has gained the
    idle timer and the timers of all its polling registries. *)
Lemma start_periodic_tasks_returns
    (Store : Type) (cluster_check : list string -> string -> result unit) (period : Z)
    (self : HealthManager.t) (w : HealthManager.World Store) :
  fst (HealthManager.start_periodic_tasks Store cluster_check period (self, w)) = Ok tt ->
  fst (snd (HealthManager.start_periodic_tasks Store cluster_check period (self, w)))
  = HealthManager.set_TG
      (HealthManager.TG self
       ++ mkTimer period Method_idle_task
          :: map (polling_timer (HealthManager.periodic_interval_max self))
                 (filter is_polling (HealthManager.rt self)))%list
      self.
Proof.
  rewrite start_periodic_tasks_unfold.
  destruct (polling_loop Store cluster_check (HealthManager.rt self)
              (HealthManager.set_TG
                 (HealthManager.TG self ++ [mkTimer period Method_idle_task]) self) w)
    as (done & rest & Hfilter & Hself & _ & _ & Hok).
  intros Hret. specialize (Hok Hret). subst rest. rewrite app_nil_r in Hfilter.
  rewrite Hself, Hfilter. simpl. now rewrite <- app_assoc.
Qed.


(** X9. [start_periodic_tasks] does not clear the timers of an earlier call:
    when it is called twice and returns both times, the thread group holds
    the idle timer and the timer of every polling registry twice. *)
Theorem start_periodic_tasks_twice
    (Store : Type) (cluster_check : list string -> string -> result unit) (period : Z)
    (self : HealthManager.t) (w : HealthManager.World Store) :
  let first := HealthManager.start_periodic_tasks Store cluster_check period (self, w) in
  let second := HealthManager.start_periodic_tasks Store cluster_check period (snd first) in
  let added :=
    mkTimer period Method_idle_task
    :: map (polling_timer (HealthManager.periodic_interval_max self))
           (filter is_polling (HealthManager.rt self)) in
  fst first = Ok tt ->
  fst second = Ok tt ->
  HealthManager.TG (fst (snd second))
  = (HealthManager.TG self ++ added ++ added)%list.
Proof.
  cbv zeta. intros Hfirst.
  pose proof (start_periodic_tasks_returns Store cluster_check period self w Hfirst)
    as Hself1.
  destruct (HealthManager.start_periodic_tasks Store cluster_check period (self, w))
    as [res1 [self1 w1]].
  cbn [fst snd] in *. intros Hsecond.
  rewrite (start_periodic_tasks_returns Store cluster_check period self1 w1 Hsecond).
  subst self1. simpl. now rewrite <- app_assoc.
Qed.

Lemma start_periodic_tasks_twice_witness :
  fst (HealthManager.start_periodic_tasks SpecStore.t check_returns 60
         (HealthManager.set_rt [reg_c1] hm_A, world_of [])) = Ok tt
  /\ HealthManager.TG
       (fst (snd (HealthManager.start_periodic_tasks SpecStore.t check_returns 60
                    (snd (HealthManager.start_periodic_tasks SpecStore.t check_returns 60
                            (HealthManager.set_rt [reg_c1] hm_A, world_of []))))))
     = [mkTimer 60 Method_idle_task; mkTimer 10 PyNone;
        mkTimer 60 Method_idle_task; mkTimer 10 PyNone].
Proof.
  split; [reflexivity|].
  apply (start_periodic_tasks_twice SpecStore.t check_returns 60
           (HealthManager.set_rt [reg_c1] hm_A) (world_of [])); reflexivity.
Defined.

(** Engine A starts on a store with its own polling rows, an event-driven
    row and a row of engine B. *)
Lemma start_timers_when_it_returns_witness :
  fst (HealthManager.start SpecStore.t spec_db check_returns 60
         (hm_A, world_of [reg_c1; reg_c4_other; reg_c3_events; reg_c2_slow])) = Ok tt
  /\ exists db_registries s',
       registry_claim spec_db [reg_c1; reg_c4_other; reg_c3_events; reg_c2_slow] engine_A
       = (Ok db_registries, s')
       /\ HealthManager.TG
            (fst (snd (HealthManager.start SpecStore.t spec_db check_returns 60
                         (hm_A,
                          world_of [reg_c1; reg_c4_other; reg_c3_events; reg_c2_slow]))))
          = mkTimer 60 Method_idle_task
            :: map (polling_timer 60)
                   (filter is_polling
                      (filter (fun r => String.eqb (Registry.engine_id r) engine_A)
                              db_registries)).
Proof.
  split; [reflexivity|].
  destruct (start_timers_when_it_returns SpecStore.t spec_db check_returns 60 hm_A
              (world_of [reg_c1; reg_c4_other; reg_c3_events; reg_c2_slow]) eq_refl)
    as (db_registries & s' & Hclaim & _ & HTG).
  exists db_registries, s'. split; [exact Hclaim | exact HTG].
Defined.



(** ** Addressing of [notify] *)

(** X11. [notify] addresses one engine exactly when [engine_id] is a
    non-empty string: with [None] and with the empty string alike the call
    goes to the topic with no server, so the two give the same result.  The
    timeout, the version and the topic of the call never depend on
    [engine_id]. *)
Theorem notify_addressing
    (timeout : Z) (api_version topic : string)
    (call : CallContext -> RequestContext -> string -> list PyArg ->
            list (string * PyArg) -> result unit)
    (current : option RequestContext)
    (method : string) (args : list PyArg) (kwargs : list (string * PyArg)) :
  notify timeout api_version topic call current (Some "") method args kwargs
  = notify timeout api_version topic call current None method args kwargs
  /\ (forall engine_id,
        cc_server (notify_call_context timeout api_version topic engine_id) = None
        <-> engine_id = None \/ engine_id = Some "")
  /\ (forall engine_id server,
        cc_server (notify_call_context timeout api_version topic engine_id) = Some server
        -> engine_id = Some server)
  /\ (forall engine_id,
        cc_timeout (notify_call_context timeout api_version topic engine_id) = timeout
        /\ cc_version (notify_call_context timeout api_version topic engine_id)
           = api_version
        /\ cc_topic (notify_call_context timeout api_version topic engine_id) = topic).
Proof.
  split; [reflexivity|].
  unfold notify_call_context, truthy.
  split; [|split].
  - intros [s|]; [|simpl; tauto].
    destruct (String.eqb_spec s "") as [->|Hne]; simpl.
    + tauto.
    + split; [discriminate|]. intros [H|H]; [discriminate|]. congruence.
  - intros [s|] server; [|discriminate].
    destruct (String.eqb s ""); simpl; [discriminate|]. auto.
  - intros [s|]; [destruct (String.eqb s "")|]; simpl; auto.
Qed.

(** ** Stopping and starting again *)

(** X12. [stop] forgets every timer and nothing else, so that a
    [start_periodic_tasks] that follows it and returns leaves exactly the
    idle timer and one timer per polling registry of the owned set,
    whatever timers the thread group held before; the owned set is the same
    throughout. *)
Theorem stop_then_start_periodic_tasks
    (Store : Type) (cluster_check : list string -> string -> result unit) (period : Z)
    (self : HealthManager.t) (w : HealthManager.World Store) :
  let stopped := HealthManager.stop Store (self, w) in
  let out := HealthManager.start_periodic_tasks Store cluster_check period (snd stopped) in
  fst out = Ok tt ->
  fst stopped = Ok tt
  /\ HealthManager.TG (fst (snd stopped)) = []
  /\ HealthManager.TG (fst (snd out))
     = mkTimer period Method_idle_task
       :: map (polling_timer (HealthManager.periodic_interval_max self))
              (filter is_polling (HealthManager.rt self))
  /\ HealthManager.rt (fst (snd out)) = HealthManager.rt self.
Proof.
  cbv zeta. rewrite stop_cancels_all_timers. cbn [fst snd]. intros Hret.
  rewrite (start_periodic_tasks_returns Store cluster_check period _ _ Hret).
  simpl. auto.
Qed.

Lemma stop_then_start_periodic_tasks_witness :
  fst (HealthManager.start_periodic_tasks SpecStore.t check_returns 60
         (snd (HealthManager.stop SpecStore.t
                 (HealthManager.set_TG [mkTimer 5 PyNone; mkTimer 7 PyNone]
                    (HealthManager.set_rt [reg_c1; reg_c3_events] hm_A),
                  world_of [])))) = Ok tt
  /\ HealthManager.TG
       (fst (snd (HealthManager.start_periodic_tasks SpecStore.t check_returns 60
                    (snd (HealthManager.stop SpecStore.t
                            (HealthManager.set_TG [mkTimer 5 PyNone; mkTimer 7 PyNone]
                               (HealthManager.set_rt [reg_c1; reg_c3_events] hm_A),
                             world_of []))))))
     = [mkTimer 60 Method_idle_task; mkTimer 10 PyNone].
Proof.
  split; [reflexivity|].
  exact (proj1 (proj2 (proj2
    (stop_then_start_periodic_tasks SpecStore.t check_returns 60
       (HealthManager.set_TG [mkTimer 5 PyNone; mkTimer 7 PyNone]
          (HealthManager.set_rt [reg_c1; reg_c3_events] hm_A))
       (world_of []) eq_refl)))).
Defined.
